(** * The texture compiler driver (bin/texture.js)

    A shallow embedding of the build driver: the command-line front end
    ([command_line], [main]), the build procedure ([compiler_build]), the
    sidecar writer ([write_texture_metadata]), the IPC 'build' handler and the
    listeners the script registers on [process].

    JavaScript control flow is kept as it is written: a call either returns,
    throws, or ends the process through [process.exit]; [try]/[catch] catches a
    throw and lets a process exit pass.  Mutable objects (the build state that
    [DataCompiler.startBuild] hands out, [application.args]) live in an
    explicit store, and every observable effect is appended to a trace. *)

From Stdlib Require Import ZArith String Ascii List Bool Lia.
From stdpp Require Import base list.
Import ListNotations.

Local Open Scope Z_scope.

Infix "+:+" := String.append (at level 60, right associativity) : string_scope.

(** ** Paths *)

Module PathModel.

(** [contains c s]: the character [c] occurs in [s]. *)
Fixpoint contains (c : ascii) (s : string) : bool :=
  match s with
  | EmptyString => false
  | String a s' => Ascii.eqb a c || contains c s'
  end.

(** [rsplit c s] cuts [s] at the last occurrence of [c]:
    [Some (l, r)] with [s = l ++ c ++ r] and no [c] in [r]. *)
Fixpoint rsplit (c : ascii) (s : string) : option (string * string) :=
  match s with
  | EmptyString => None
  | String a s' =>
      match rsplit c s' with
      | Some (l, r) => Some (String a l, r)
      | None => if Ascii.eqb a c then Some (EmptyString, s') else None
      end
  end.

(** The directory prefix of a path (with its final separator) and the file
    name that follows it. *)
Definition split_dir (p : string) : string * string :=
  match rsplit "/" p with
  | Some (d, f) => ((d +:+ "/")%string, f)
  | None => (EmptyString, p)
  end.

(** The base name of a file name and its extension, when it has one. *)
Definition split_ext (f : string) : string * option string :=
  match rsplit "." f with
  | Some (stem, e) => (stem, Some e)
  | None => (f, None)
  end.

Definition dirname (p : string) : string := fst (split_dir p).
Definition filename (p : string) : string := snd (split_dir p).
Definition stem (p : string) : string := fst (split_ext (filename p)).
Definition extension (p : string) : option string := snd (split_ext (filename p)).

(** [split c s]: the pieces of [s] between occurrences of [c]. *)
Fixpoint split_acc (c : ascii) (s : string) (cur : string) : list string :=
  match s with
  | EmptyString => [cur]
  | String a s' =>
      if Ascii.eqb a c then cur :: split_acc c s' EmptyString
      else split_acc c s' (cur +:+ String a EmptyString)%string
  end.

Definition split (c : ascii) (s : string) : list string :=
  split_acc c s EmptyString.

Definition nonempty (s : string) : bool := negb (String.eqb s "").

Definition starts_with_slash (s : string) : bool :=
  match s with
  | String a _ => Ascii.eqb a "/"
  | EmptyString => false
  end.

Fixpoint ends_with_slash (s : string) : bool :=
  match s with
  | EmptyString => false
  | String a EmptyString => Ascii.eqb a "/"
  | String _ s' => ends_with_slash s'
  end.

(** One step of path normalisation: [stack] holds the segments kept so far,
    last one first. *)
Definition normalize_step (absolute : bool) (stack : list string) (seg : string)
  : list string :=
  if String.eqb seg "." then stack
  else if String.eqb seg ".." then
    match stack with
    | top :: rest =>
        if String.eqb top ".." then seg :: stack else rest
    | [] => if absolute then [] else [seg]
    end
  else seg :: stack.

Definition join_with (sep : string) (parts : list string) : string :=
  match parts with
  | [] => EmptyString
  | p :: ps => fold_left (fun acc q => (acc +:+ sep +:+ q)%string) ps p
  end.

End PathModel.

(** Modelled from the spec: [Path.basename] is Node's path module, which is
    not part of this repository.  "Takes the base filename of sourcePath":
    the last portion of the path, trailing separators ignored (POSIX form). *)
Definition Path_basename (p : string) : string :=
  match rev (List.filter PathModel.nonempty (PathModel.split "/" p)) with
  | last :: _ => last
  | [] => EmptyString
  end.

(** Modelled from the spec: [Path.normalize] of Node's path module (POSIX
    form): empty and [.] segments dropped, [..] resolved against the segment
    before it, a trailing separator kept, the empty result written [.]. *)
Definition Path_normalize (p : string) : string :=
  let absolute := PathModel.starts_with_slash p in
  let trailing := PathModel.ends_with_slash p in
  let segs := List.filter PathModel.nonempty (PathModel.split "/" p) in
  let kept := rev (fold_left (PathModel.normalize_step absolute) segs []) in
  let body := PathModel.join_with "/" kept in
  let body := if String.eqb body "" && negb absolute then "."%string else body in
  let body := if PathModel.nonempty body && trailing && negb (String.eqb body ".")
              then (body +:+ "/")%string else body in
  if absolute then ("/" +:+ body)%string else body.

(** Modelled from the spec: [Path.join] of Node's path module, "joins it to
    the current working directory": the non-empty arguments joined by the
    separator, then normalised. *)
Definition Path_join (a b : string) : string :=
  let parts := List.filter PathModel.nonempty [a; b] in
  match parts with
  | [] => "."%string
  | _ => Path_normalize (PathModel.join_with "/" parts)
  end.

(** Modelled from the spec: [DataCompiler.changeExtension] belongs to the
    datacompiler package, which is not part of this repository.  It "replaces
    the file extension" of a path with a fixed literal extension; the
    replacement "operates on the filename only (directory components
    untouched)", and a name without an extension gets the new one appended. *)
Definition DataCompiler_changeExtension (path ext : string) : string :=
  let (dir, file) := PathModel.split_dir path in
  let (stem, _) := PathModel.split_ext file in
  (dir +:+ stem +:+ "." +:+ ext)%string.


(** ** Constants of the application module *)

Module application.
(** The name of the application module. *)
Definition NAME : string := "texture".
(** The data compiler version number. *)
Definition version : Z := 1.
End application.

Module exit_code.
(** The program has exited successfully. *)
Definition SUCCESS : Z := 0.
(** The program has exited with an unknown error. *)
Definition ERROR : Z := 1.
(** The program has exited because the source file does not exist. *)
Definition FILE_NOT_FOUND : Z := 2.
End exit_code.

(** ** Data *)

(** What commander leaves on [Program] after [parse]: the four options, each
    with its default ([false] and the empty string). *)
Record ProgramOptions := {
  opt_persistent : bool;
  opt_input : string;
  opt_output : string;
  opt_target : string
}.

(** The object [command_line] returns, kept in [application.args]. *)
Record Args := {
  args_persistent : bool;
  args_sourcePath : string;
  args_targetPath : string;
  args_platform : string
}.

(** The payload of an IPC 'build' event. *)
Record BuildEvent := {
  data_sourcePath : string;
  data_targetPath : string;
  data_platform : string
}.

(** The argument of [compiler_build]. *)
Record BuildInput := {
  sourcePath : string;
  targetPath : string;
  platform : string;
  isIPC : bool
}.

(** The object literal handed to [TextureCompiler.compile]. *)
Record CompileOptions := {
  co_sourcePath : string;
  co_targetPath : string;
  co_type : string;
  co_format : string;
  co_target : string;
  co_wrapModeS : string;
  co_wrapModeT : string;
  co_minifyFilter : string;
  co_magnifyFilter : string;
  co_borderMode : string;
  co_premultipliedAlpha : bool;
  co_forcePowerOfTwo : bool;
  co_flipY : bool;
  co_buildMipmaps : bool;
  co_levelCount : Z;
  co_targetWidth : Z;
  co_targetHeight : Z
}.

(** ** External collaborators

    The native texture compiler, the file system, [JSON.stringify] and the
    pieces of the datacompiler package that do I/O are outside this
    repository; the driver is written against them, and so is the model. *)
Class Collaborators := {
  (** Values a [throw] can carry. *)
  JsError : Type;
  (** What [TextureCompiler.compile] returns. *)
  Metadata : Type;
  (** The file system as the process sees it. *)
  FS : Type;
  (** What [DataCompiler.parseResourcePath] returns. *)
  ResourceInfo : Type;
  (** String conversion, as in ['  '+error]. *)
  error_toString : JsError -> string;
  (** The native compiler behind [TextureCompiler.compile(options)]: it reads
      the source and writes the payload; [inl] is the value it throws. *)
  native_compile : CompileOptions -> FS -> (JsError + Metadata) * FS;
  (** The text [JSON.stringify(meta, null, '\t')] yields where [+'\n'] reads
      it; [inl] is the value it throws on what it cannot serialise. *)
  json_text : Metadata -> JsError + string;
  (** The file system behind [Filesystem.writeFileSync(path, data, 'utf8')]:
      [Some] is the value it throws (the file system may have changed by
      then), [None] is completion. *)
  fs_write : string -> string -> FS -> option JsError * FS;
  (** The file system behind [DataCompiler.isFile(path)]. *)
  fs_isFile : string -> FS -> bool;
  (** [DataCompiler.parseResourcePath(path)]: a pure decomposition. *)
  parse_resource_path : string -> ResourceInfo;
  (** The error a closed build state raises when it is mutated. *)
  ProtocolViolation : JsError
}.

Section Driver.

Context `{Collaborators}.

(** Modelled from the spec: the build state that [DataCompiler.startBuild]
    returns (datacompiler package, not part of this repository): "{outputs:
    ordered sequence of file paths, errors: ordered sequence of error
    records, open: boolean}". *)
Record BuildState := {
  request : BuildInput;
  outputs : list string;
  errors : list JsError;
  open : bool
}.

(** Modelled from the spec: the snapshot [FinishBuild] returns, "{outputs,
    errors, succeeded = errors.count == 0}". *)
Record BuildResult := {
  result_outputs : list string;
  result_errors : list JsError;
  succeeded : bool
}.

(** Observable effects, in the order they happen. *)
Inductive Event :=
| EvStartBuild (h : nat)
| EvAddOutput (h : nat) (path : string)
| EvAddError (h : nat) (e : JsError)
| EvFinishBuild (h : nat) (r : BuildResult)
| EvCompile (o : CompileOptions)
| EvWriteFile (path contents : string)
| EvLog (line : string)
| EvError (line : string).

(** The state of the process. *)
Record World := {
  (** The file system. *)
  fs : FS;
  (** [process.cwd()]. *)
  cwd : string;
  (** [process.argv[1]]. *)
  argv1 : string;
  (** [application.args]: [None] is the initial [{}]. *)
  application_args : option Args;
  (** The build states handed out so far; a state's handle is its index. *)
  heap : list BuildState;
  (** The effects so far, oldest first. *)
  trace : list Event
}.

Definition with_fs (f : FS) (w : World) : World :=
  {| fs := f; cwd := cwd w; argv1 := argv1 w;
     application_args := application_args w; heap := heap w; trace := trace w |}.

Definition with_args (a : option Args) (w : World) : World :=
  {| fs := fs w; cwd := cwd w; argv1 := argv1 w;
     application_args := a; heap := heap w; trace := trace w |}.

Definition with_heap (hp : list BuildState) (w : World) : World :=
  {| fs := fs w; cwd := cwd w; argv1 := argv1 w;
     application_args := application_args w; heap := hp; trace := trace w |}.

Definition emit (e : Event) (w : World) : World :=
  {| fs := fs w; cwd := cwd w; argv1 := argv1 w;
     application_args := application_args w; heap := heap w;
     trace := trace w ++ [e] |}.

(** ** Control flow *)

(** How a call ends. *)
Inductive Outcome (A : Type) :=
| Returned (a : A)
| Thrown (e : JsError)
| Exited (code : Z).

Arguments Returned {A} a.
Arguments Thrown {A} e.
Arguments Exited {A} code.

Definition Js (A : Type) : Type := World -> Outcome A * World.

Definition ret {A} (a : A) : Js A := fun w => (Returned a, w).

Definition bind {A B} (m : Js A) (k : A -> Js B) : Js B :=
  fun w =>
    match m w with
    | (Returned a, w') => k a w'
    | (Thrown e, w') => (Thrown e, w')
    | (Exited c, w') => (Exited c, w')
    end.

Definition throw {A} (e : JsError) : Js A := fun w => (Thrown e, w).

(** [process.exit(code)]. *)
Definition process_exit {A} (code : Z) : Js A := fun w => (Exited code, w).

(** [try { body } catch (error) { handler }]. *)
Definition try_catch {A} (body : Js A) (handler : JsError -> Js A) : Js A :=
  fun w =>
    match body w with
    | (Thrown e, w') => handler e w'
    | r => r
    end.

Definition get {A} (f : World -> A) : Js A := fun w => (Returned (f w), w).

Definition modify (f : World -> World) : Js unit := fun w => (Returned tt, f w).

End Driver.

Arguments Returned {_ A} a.
Arguments Thrown {_ A} e.
Arguments Exited {_ A} code.

Declare Scope js_scope.
Delimit Scope js_scope with js.
Notation "x <- m ;; k" := (bind m (fun x => k))
  (at level 100, m at next level, right associativity) : js_scope.
Notation "m ;; k" := (bind m (fun _ => k))
  (at level 100, right associativity) : js_scope.

Local Open Scope js_scope.

Section Program.

Context `{Collaborators}.

(** ** The build state tracker *)

(** Modelled from the spec: the states and the snapshot of the tracker
    (datacompiler package), as section 4.2 of the spec gives them: a new
    state is open and empty, outputs and errors are appended in order, and
    the snapshot has "succeeded = errors.count == 0". *)
Definition fresh_state (input : BuildInput) : BuildState :=
  {| request := input; outputs := []; errors := []; open := true |}.

Definition push_output (path : string) (st : BuildState) : BuildState :=
  {| request := request st; outputs := outputs st ++ [path];
     errors := errors st; open := open st |}.

Definition push_error (e : JsError) (st : BuildState) : BuildState :=
  {| request := request st; outputs := outputs st;
     errors := errors st ++ [e]; open := open st |}.

Definition close (st : BuildState) : BuildState :=
  {| request := request st; outputs := outputs st;
     errors := errors st; open := false |}.

Definition snapshot (st : BuildState) : BuildResult :=
  {| result_outputs := outputs st; result_errors := errors st;
     succeeded := Nat.eqb (length (errors st)) 0 |}.

(** Modelled from the spec: [DataCompiler.startBuild] (datacompiler package):
    "StartBuild(request) -> BuildState: transitions to Open; initializes
    empty outputs/errors".  The new state's handle is returned. *)
Definition DataCompiler_startBuild (input : BuildInput) : Js nat :=
  fun w =>
    let h := length (heap w) in
    (Returned h,
     emit (EvStartBuild h) (with_heap (heap w ++ [fresh_state input]) w)).

(** Modelled from the spec: a mutator of the state behind [h] (datacompiler
    package): "valid only in Open"; "calling any mutator after Closed fails
    with a ProtocolViolation error". *)
Definition mutate (h : nat) (f : BuildState -> BuildState) (ev : Event)
  : Js unit :=
  fun w =>
    match heap w !! h with
    | Some st =>
        if open st
        then (Returned tt, emit ev (with_heap (<[h := f st]> (heap w)) w))
        else (Thrown ProtocolViolation, w)
    | None => (Thrown ProtocolViolation, w)
    end.

(** Modelled from the spec: [state.addOutput(path)] (datacompiler package):
    "appends path; no dedup (duplicates permitted, order preserved)". *)
Definition addOutput (h : nat) (path : string) : Js unit :=
  mutate h (push_output path) (EvAddOutput h path).

(** Modelled from the spec: [state.addError(error)] (datacompiler package):
    "appends a structured error"; "does not itself terminate the build". *)
Definition addError (h : nat) (e : JsError) : Js unit :=
  mutate h (push_error e) (EvAddError h e).

(** Modelled from the spec: [DataCompiler.finishBuild(state)] (datacompiler
    package): "transitions to Closed; returns an immutable snapshot". *)
Definition DataCompiler_finishBuild (h : nat) : Js BuildResult :=
  fun w =>
    match heap w !! h with
    | Some st =>
        (Returned (snapshot st),
         emit (EvFinishBuild h (snapshot st))
              (with_heap (<[h := close st]> (heap w)) w))
    | None => (Thrown ProtocolViolation, w)
    end.

(** ** Calls into the collaborators *)

Definition console_log (line : string) : Js unit := modify (emit (EvLog line)).

Definition console_error (line : string) : Js unit :=
  modify (emit (EvError line)).

Definition TextureCompiler_compile (o : CompileOptions) : Js Metadata :=
  fun w =>
    match native_compile o (fs w) with
    | (inr md, f) => (Returned md, emit (EvCompile o) (with_fs f w))
    | (inl e, f) => (Thrown e, emit (EvCompile o) (with_fs f w))
    end.

Definition JSON_stringify (meta : Metadata) : Js string :=
  match json_text meta with
  | inr s => ret s
  | inl e => throw e
  end.

(** The write is recorded in the trace when it has completed. *)
Definition Filesystem_writeFileSync (path data : string) : Js unit :=
  fun w =>
    match fs_write path data (fs w) with
    | (None, f) => (Returned tt, emit (EvWriteFile path data) (with_fs f w))
    | (Some e, f) => (Thrown e, with_fs f w)
    end.

Definition DataCompiler_isFile (path : string) : Js bool :=
  get (fun w => fs_isFile path (fs w)).

Definition newline : string := String "010"%char EmptyString.

(** ** bin/texture.js *)

(** Processes any options specified on the command line. *)
Definition command_line (Program : ProgramOptions) : Js Args :=
  if opt_persistent Program then
    a1 <- get argv1 ;;
    ret {| args_persistent := true; args_sourcePath := a1;
           args_targetPath := a1; args_platform := "" |}
  else
    found <- DataCompiler_isFile (opt_input Program) ;;
    (if negb found then
       console_log "Error: No input file specified or input file not found." ;;
       console_log "" ;;
       process_exit exit_code.FILE_NOT_FOUND
     else ret tt) ;;
    output <-
      (if String.eqb (opt_output Program) "" then
         let file := Path_basename (opt_input Program) in
         path <- get cwd ;;
         let file := DataCompiler_changeExtension file "pixels" in
         ret (Path_join path file)
       else ret (opt_output Program)) ;;
    ret {| args_persistent := false; args_sourcePath := opt_input Program;
           args_targetPath := output; args_platform := opt_target Program |}.

(** Writes a JSON document specifying texture metadata to disk. *)
Definition write_texture_metadata (path : string) (meta : Metadata) : Js unit :=
  text <- JSON_stringify meta ;;
  let json := (text +:+ newline)%string in
  Filesystem_writeFileSync path json.

Definition compile_options (input : BuildInput) : CompileOptions :=
  {| co_sourcePath := sourcePath input;
     co_targetPath := targetPath input;
     co_type := "COLOR";
     co_format := "RGB";
     co_target := "TEXTURE_2D";
     co_wrapModeS := "CLAMP_TO_EDGE";
     co_wrapModeT := "CLAMP_TO_EDGE";
     co_minifyFilter := "LINEAR";
     co_magnifyFilter := "LINEAR";
     co_borderMode := "CLAMP";
     co_premultipliedAlpha := false;
     co_forcePowerOfTwo := false;
     co_flipY := true;
     co_buildMipmaps := false;
     co_levelCount := 0;
     co_targetWidth := 0;
     co_targetHeight := 0 |}.

(** [var mpath = DataCompiler.changeExtension(input.targetPath, 'texture')]. *)
Definition mpath (input : BuildInput) : string :=
  DataCompiler_changeExtension (targetPath input) "texture".

(** [var ppath = input.targetPath]. *)
Definition ppath (input : BuildInput) : string := targetPath input.

(** [!application.args.persistent]: a missing property is falsy. *)
Definition not_persistent (a : option Args) : bool :=
  match a with
  | Some args => negb (args_persistent args)
  | None => true
  end.

(** Implements the build process for the data compiler. *)
Definition compiler_build (input : BuildInput) : Js unit :=
  state <- DataCompiler_startBuild input ;;
  let rinfo := parse_resource_path (sourcePath input) in
  try_catch
    (md <- TextureCompiler_compile (compile_options input) ;;
     write_texture_metadata (mpath input) md ;;
     addOutput state (mpath input) ;;
     addOutput state (ppath input))
    (fun error =>
       addError state error ;;
       standalone <- get (fun w => not_persistent (application_args w)) ;;
       if standalone then
         console_error "An error has occurred:" ;;
         console_error ("  " +:+ error_toString error)%string ;;
         console_error "" ;;
         process_exit exit_code.ERROR
       else ret tt) ;;
  _ <- DataCompiler_finishBuild state ;;
  ret tt.

(** [DataCompiler.queryCompilerVersion]. *)
Definition queryCompilerVersion : Z := application.version.

(** The listener of the DataCompiler 'build' event. *)
Definition on_build (data : BuildEvent) : Js unit :=
  compiler_build {| sourcePath := data_sourcePath data;
                    targetPath := data_targetPath data;
                    platform := data_platform data;
                    isIPC := true |}.

(** The listener registered as [process.on('unhandledException', ...)]. *)
Definition on_unhandledException (error : JsError) : Js unit :=
  console_error "An unhandled exception has occurred:" ;;
  console_error ("  Error: " +:+ error_toString error)%string ;;
  console_error "" ;;
  process_exit exit_code.ERROR.

Definition on_SIGTERM : Js unit := process_exit exit_code.SUCCESS.

Definition on_SIGINT : Js unit := process_exit exit_code.SUCCESS.

(** The listeners the script registers on [process], by event name. *)
Definition process_listeners : list (string * (JsError -> Js unit)) :=
  [ ("unhandledException"%string, on_unhandledException);
    ("SIGTERM"%string, fun _ => on_SIGTERM);
    ("SIGINT"%string, fun _ => on_SIGINT) ].

(** Node's [emitter.emit(name, arg)] over [process_listeners]: the listeners
    registered under [name] run in order; the call returns whether there was
    one. *)
Definition process_emit (name : string) (arg : JsError) : Js bool :=
  let ls := List.filter (fun l => String.eqb (fst l) name) process_listeners in
  fold_right (fun l k => snd l arg ;; k) (ret (negb (Nat.eqb (length ls) 0))) ls.

(** The name under which Node reports an exception nothing caught. *)
Definition uncaught_event : string := "uncaughtException".

(** Implements and executes the entry point of the command-line application. *)
Definition main (Program : ProgramOptions) : Js unit :=
  args <- command_line Program ;;
  modify (with_args (Some args)) ;;
  let ipcMode := args_persistent args in
  if Bool.eqb ipcMode false then
    compiler_build {| sourcePath := args_sourcePath args;
                      targetPath := args_targetPath args;
                      platform := args_platform args;
                      isIPC := false |}
  else ret tt.

End Program.

(** ** Reading a run *)

Section Observations.

Context `{Collaborators}.

(** The world in which the [try] block of [compiler_build] starts. *)
Definition started (input : BuildInput) (w : World) : World :=
  snd (DataCompiler_startBuild input w).

(** The effects of a run that led from [w] to [w']. *)
Definition events_since (w w' : World) : list Event :=
  drop (length (trace w)) (trace w').

Definition is_start (h : nat) (ev : Event) : bool :=
  match ev with
  | EvStartBuild h' => Nat.eqb h' h
  | _ => false
  end.

Definition is_finish (h : nat) (ev : Event) : bool :=
  match ev with
  | EvFinishBuild h' _ => Nat.eqb h' h
  | _ => false
  end.

Definition is_error (h : nat) (ev : Event) : bool :=
  match ev with
  | EvAddError h' _ => Nat.eqb h' h
  | _ => false
  end.

Definition is_write (ev : Event) : bool :=
  match ev with
  | EvWriteFile _ _ => true
  | _ => false
  end.

Definition is_any_start (ev : Event) : bool :=
  match ev with
  | EvStartBuild _ => true
  | _ => false
  end.

(** How often [DataCompiler.startBuild] returned the state [h]. *)
Definition start_count (h : nat) (evs : list Event) : nat :=
  length (List.filter (is_start h) evs).

(** How often [DataCompiler.finishBuild] was invoked on the state [h]. *)
Definition finish_count (h : nat) (evs : list Event) : nat :=
  length (List.filter (is_finish h) evs).

(** How often [addError] was invoked on the state [h]. *)
Definition error_count (h : nat) (evs : list Event) : nat :=
  length (List.filter (is_error h) evs).

(** The file writes among the effects. *)
Definition writes (evs : list Event) : list Event := List.filter is_write evs.

(** The lines printed by [console.error]. *)
Fixpoint stderr (evs : list Event) : list string :=
  match evs with
  | [] => []
  | EvError line :: rest => line :: stderr rest
  | _ :: rest => stderr rest
  end.

(** The lines printed by [console.log]. *)
Fixpoint stdout (evs : list Event) : list string :=
  match evs with
  | [] => []
  | EvLog line :: rest => line :: stdout rest
  | _ :: rest => stdout rest
  end.

(** Every recording of an output comes after a completed write to [path]. *)
Definition write_before_every_output (path : string) (evs : list Event) : Prop :=
  forall pre h p post,
    evs = pre ++ EvAddOutput h p :: post ->
    exists contents, In (EvWriteFile path contents) pre.

(** What the collaborators answer to the calls of the [try] block, on the
    file system [f]: the value thrown, or the text written to the sidecar. *)
Definition try_block_result (input : BuildInput) (f : FS)
  : (JsError + string) * FS :=
  match native_compile (compile_options input) f with
  | (inl e, f1) => (inl e, f1)
  | (inr md, f1) =>
      match json_text md with
      | inl e => (inl e, f1)
      | inr text =>
          match fs_write (mpath input) (text +:+ newline)%string f1 with
          | (Some e, f2) => (inl e, f2)
          | (None, f2) => (inr (text +:+ newline)%string, f2)
          end
      end
  end.

(** [w] with the file system [f], one more build state and more effects. *)
Definition world_after (w : World) (f : FS) (st : BuildState)
  (evs : list Event) : World :=
  {| fs := f; cwd := cwd w; argv1 := argv1 w;
     application_args := application_args w;
     heap := heap w ++ [st]; trace := trace w ++ evs |}.

Definition succeeded_state (input : BuildInput) : BuildState :=
  {| request := input; outputs := [mpath input; ppath input];
     errors := []; open := false |}.

Definition failed_state (input : BuildInput) (e : JsError) (o : bool)
  : BuildState :=
  {| request := input; outputs := []; errors := [e]; open := o |}.

(** [compiler_build] in closed form, by cases on the collaborators' answers
    and on [application.args.persistent]. *)
Definition build_run (input : BuildInput) (w : World) : Outcome unit * World :=
  let h := length (heap w) in
  let o := compile_options input in
  match try_block_result input (fs w) with
  | (inr json, f) =>
      (Returned tt,
       world_after w f (succeeded_state input)
         [EvStartBuild h; EvCompile o; EvWriteFile (mpath input) json;
          EvAddOutput h (mpath input); EvAddOutput h (ppath input);
          EvFinishBuild h (snapshot (succeeded_state input))])
  | (inl e, f) =>
      if not_persistent (application_args w) then
        (Exited exit_code.ERROR,
         world_after w f (failed_state input e true)
           [EvStartBuild h; EvCompile o; EvAddError h e;
            EvError "An error has occurred:";
            EvError ("  " +:+ error_toString e)%string;
            EvError ""])
      else
        (Returned tt,
         world_after w f (failed_state input e false)
           [EvStartBuild h; EvCompile o; EvAddError h e;
            EvFinishBuild h (snapshot (failed_state input e false))])
  end.

(** What [command_line] returns when the input exists and no output is
    given. *)
Definition default_args (Program : ProgramOptions) (w : World) : Args :=
  {| args_persistent := false;
     args_sourcePath := opt_input Program;
     args_targetPath :=
       Path_join (cwd w)
         (DataCompiler_changeExtension
            (Path_basename (opt_input Program)) "pixels");
     args_platform := opt_target Program |}.

End Observations.

(** ** A concrete set of collaborators

    A file system of named files; the compiler succeeds on a source that
    exists, and a write fails under the read-only directory [/ro/]. *)

Module Demo.

Definition Files : Type := list (string * string).

Definition has_file (p : string) (f : Files) : bool :=
  existsb (fun kv => String.eqb (fst kv) p) f.

Definition read_only (p : string) : bool := String.prefix "/ro/" p.

Definition collaborators : Collaborators :=
  {| JsError := string;
     Metadata := string;
     FS := Files;
     ResourceInfo := string;
     error_toString := fun e => e;
     native_compile := fun o f =>
       if has_file (co_sourcePath o) f
       then (inr "{}"%string, (co_targetPath o, "PIXELS"%string) :: f)
       else (inl "Error: cannot read the source image"%string, f);
     json_text := fun md => inr md;
     fs_write := fun p d f =>
       if read_only p
       then (Some "Error: EACCES"%string, f)
       else (None, (p, d) :: f);
     fs_isFile := has_file;
     parse_resource_path := fun p => p;
     ProtocolViolation := "ProtocolViolation"%string |}.

(** A process started in [/work], where [photo.png] exists. *)
Definition world (args : option Args) : @World collaborators :=
  @Build_World collaborators
    [("photo.png"%string, "PNG"%string)]
    "/work"
    "/usr/lib/node_modules/texture/bin/texture.js"
    args [] [].

Definition standalone_args : Args :=
  {| args_persistent := false; args_sourcePath := "photo.png";
     args_targetPath := "/work/photo.pixels"; args_platform := "" |}.

Definition persistent_args : Args :=
  {| args_persistent := true;
     args_sourcePath := "/usr/lib/node_modules/texture/bin/texture.js";
     args_targetPath := "/usr/lib/node_modules/texture/bin/texture.js";
     args_platform := "" |}.

Definition good_input (ipc : bool) : BuildInput :=
  {| sourcePath := "photo.png"; targetPath := "/work/photo.pixels";
     platform := ""; isIPC := ipc |}.

Definition missing_input (ipc : bool) : BuildInput :=
  {| sourcePath := "missing.png"; targetPath := "/work/missing.pixels";
     platform := ""; isIPC := ipc |}.

Definition read_only_input (ipc : bool) : BuildInput :=
  {| sourcePath := "photo.png"; targetPath := "/ro/photo.pixels";
     platform := ""; isIPC := ipc |}.

Definition options (i o : string) : ProgramOptions :=
  {| opt_persistent := false; opt_input := i; opt_output := o;
     opt_target := "" |}.

End Demo.

(** ** Reading a run of the whole program *)

Section RunObservations.

Context `{Collaborators}.


Definition is_output (h : nat) (ev : Event) : bool :=
  match ev with
  | EvAddOutput h' _ => Nat.eqb h' h
  | _ => false
  end.

(** The last character of a string. *)
Fixpoint last_char (s : string) : option ascii :=
  match s with
  | EmptyString => None
  | String a EmptyString => Some a
  | String _ s' => last_char s'
  end.

(** The target path [command_line] returns outside persistent mode: the
    output option when it is given, the derived path otherwise. *)
Definition resolved_target (Program : ProgramOptions) (w : World) : string :=
  if String.eqb (opt_output Program) ""
  then Path_join (cwd w)
         (DataCompiler_changeExtension
            (Path_basename (opt_input Program)) "pixels")
  else opt_output Program.

(** The object [command_line] returns outside persistent mode. *)
Definition cli_args (Program : ProgramOptions) (w : World) : Args :=
  {| args_persistent := false;
     args_sourcePath := opt_input Program;
     args_targetPath := resolved_target Program w;
     args_platform := opt_target Program |}.

(** The object [command_line] returns in persistent mode. *)
Definition ipc_args (w : World) : Args :=
  {| args_persistent := true;
     args_sourcePath := argv1 w;
     args_targetPath := argv1 w;
     args_platform := "" |}.

(** The argument [main] hands to [compiler_build]. *)
Definition cli_input (Program : ProgramOptions) (w : World) : BuildInput :=
  {| sourcePath := opt_input Program;
     targetPath := resolved_target Program w;
     platform := opt_target Program;
     isIPC := false |}.

(** The argument the 'build' listener hands to [compiler_build]. *)
Definition ipc_input (data : BuildEvent) : BuildInput :=
  {| sourcePath := data_sourcePath data;
     targetPath := data_targetPath data;
     platform := data_platform data;
     isIPC := true |}.

End RunObservations.

(** * Properties *)

(** ** Paths *)

Module PathFacts.
Import PathModel.

Local Open Scope string_scope.

Lemma append_assoc (a b c : string) : (a +:+ b) +:+ c = a +:+ (b +:+ c).
Proof. induction a as [|x a IH]; cbn; [reflexivity | by rewrite IH]. Qed.

Lemma contains_append (c : ascii) (a b : string) :
  contains c (a +:+ b) = contains c a || contains c b.
Proof.
  induction a as [|x a IH]; cbn; [reflexivity |].
  rewrite IH. by rewrite orb_assoc.
Qed.

Lemma rsplit_absent (c : ascii) (s : string) :
  contains c s = false -> rsplit c s = None.
Proof.
  induction s as [|x s IH]; cbn; [reflexivity |].
  intros [Hx Hs]%orb_false_iff. rewrite (IH Hs), Hx. reflexivity.
Qed.

Lemma rsplit_Some (c : ascii) (s l r : string) :
  rsplit c s = Some (l, r) -> s = l +:+ String c r /\ contains c r = false.
Proof.
  revert l r. induction s as [|x s IH]; cbn; [discriminate |].
  intros l r. destruct (rsplit c s) as [[l' r']|] eqn:E.
  - intros [= <- <-]. destruct (IH _ _ eq_refl) as [-> Hr].
    split; [reflexivity | exact Hr].
  - destruct (Ascii.eqb x c) eqn:Ex; [|discriminate].
    intros [= <- <-]. apply Ascii.eqb_eq in Ex as ->. split; [reflexivity |].
    destruct (contains c s) eqn:Hc; [|reflexivity].
    exfalso. clear IH. induction s as [|y s IHs]; cbn in *; [discriminate |].
    destruct (rsplit c s) as [[? ?]|]; [discriminate |].
    destruct (Ascii.eqb y c); [discriminate |]. cbn in Hc. by apply IHs.
Qed.

Lemma rsplit_append (c : ascii) (l r : string) :
  contains c r = false -> rsplit c (l +:+ String c r) = Some (l, r).
Proof.
  intros Hr. induction l as [|x l IH]; cbn.
  - rewrite (rsplit_absent _ _ Hr), Ascii.eqb_refl. reflexivity.
  - rewrite IH. reflexivity.
Qed.

Lemma filename_no_slash (p : string) : contains "/" (filename p) = false.
Proof.
  unfold filename, split_dir.
  destruct (rsplit "/" p) as [[d f]|] eqn:E; cbn.
  - by destruct (rsplit_Some _ _ _ _ E).
  - destruct (contains "/" p) eqn:Hc; [|reflexivity].
    exfalso. induction p as [|y p IHp]; cbn in *; [discriminate |].
    destruct (rsplit "/" p) as [[? ?]|]; [discriminate |].
    destruct (Ascii.eqb y "/"); [discriminate |]. cbn in Hc. by apply IHp.
Qed.

Lemma stem_no_slash (p : string) : contains "/" (stem p) = false.
Proof.
  pose proof (filename_no_slash p) as Hf. unfold stem, split_ext.
  destruct (rsplit "." (filename p)) as [[st e]|] eqn:E; cbn; [|exact Hf].
  destruct (rsplit_Some _ _ _ _ E) as [Heq _]. rewrite Heq in Hf.
  rewrite contains_append in Hf. by apply orb_false_iff in Hf as [? _].
Qed.

(** A file name put after the directory of [p] splits back into the two. *)
Lemma split_dir_dirname (p name : string) :
  contains "/" name = false ->
  split_dir (dirname p +:+ name) = (dirname p, name).
Proof.
  intros Hn. unfold dirname. unfold split_dir at 2 3.
  destruct (rsplit "/" p) as [[d f]|]; cbn [fst].
  - unfold split_dir. rewrite append_assoc. cbn [String.append].
    rewrite (rsplit_append _ _ _ Hn). reflexivity.
  - cbn [String.append]. unfold split_dir.
    rewrite (rsplit_absent _ _ Hn). reflexivity.
Qed.

Lemma changeExtension_shape (p ext : string) :
  DataCompiler_changeExtension p ext = dirname p +:+ stem p +:+ "." +:+ ext.
Proof.
  unfold DataCompiler_changeExtension, dirname, stem, filename.
  destruct (split_dir p) as [d f]; cbn [fst snd].
  destruct (split_ext f) as [st e]; reflexivity.
Qed.

Lemma changeExtension_split_dir (p ext : string) :
  contains "/" ext = false ->
  split_dir (DataCompiler_changeExtension p ext)
  = (dirname p, stem p +:+ "." +:+ ext).
Proof.
  intros He. rewrite changeExtension_shape. apply split_dir_dirname.
  rewrite contains_append, stem_no_slash. cbn. exact He.
Qed.

(** Replacing the extension leaves the directory of a path as it is. *)
Lemma changeExtension_dirname (p ext : string) :
  contains "/" ext = false ->
  dirname (DataCompiler_changeExtension p ext) = dirname p.
Proof.
  intros He. unfold dirname at 1. by rewrite changeExtension_split_dir.
Qed.

Lemma changeExtension_split_ext (p ext : string) :
  contains "/" ext = false -> contains "." ext = false ->
  split_ext (filename (DataCompiler_changeExtension p ext))
  = (stem p, Some ext).
Proof.
  intros He Hd. unfold filename. rewrite changeExtension_split_dir by exact He.
  cbn [snd String.append]. unfold split_ext.
  rewrite (rsplit_append _ _ _ Hd). reflexivity.
Qed.

(** Replacing the extension leaves the base name of a path as it is. *)
Lemma changeExtension_stem (p ext : string) :
  contains "/" ext = false -> contains "." ext = false ->
  stem (DataCompiler_changeExtension p ext) = stem p.
Proof.
  intros He Hd. unfold stem at 1. by rewrite changeExtension_split_ext.
Qed.

(** The path that comes out has the new extension. *)
Lemma changeExtension_extension (p ext : string) :
  contains "/" ext = false -> contains "." ext = false ->
  extension (DataCompiler_changeExtension p ext) = Some ext.
Proof.
  intros He Hd. unfold extension. by rewrite changeExtension_split_ext.
Qed.

(** Replacing the extension twice is replacing it once. *)
Lemma changeExtension_idempotent (p ext : string) :
  contains "/" ext = false -> contains "." ext = false ->
  DataCompiler_changeExtension (DataCompiler_changeExtension p ext) ext
  = DataCompiler_changeExtension p ext.
Proof.
  intros He Hd.
  rewrite (changeExtension_shape (DataCompiler_changeExtension p ext)).
  rewrite changeExtension_dirname, changeExtension_stem by assumption.
  symmetry. apply changeExtension_shape.
Qed.

End PathFacts.

(** ** The build procedure *)

Section Facts.

Context `{Collaborators}.

Lemma lookup_fresh (hp : list BuildState) (st : BuildState) :
  (hp ++ [st]) !! length hp = Some st.
Proof. by apply list_lookup_middle. Qed.

Lemma insert_fresh (hp : list BuildState) (st st' : BuildState) :
  <[length hp := st']> (hp ++ [st]) = hp ++ [st'].
Proof.
  rewrite insert_app_r_alt by lia. by rewrite Nat.sub_diag.
Qed.

Lemma events_since_after (w : World) f st evs :
  events_since w (world_after w f st evs) = evs.
Proof. unfold events_since, world_after; cbn. apply drop_app_length. Qed.

Lemma heap_after (w : World) f st evs :
  heap (world_after w f st evs) !! length (heap w) = Some st.
Proof. apply lookup_fresh. Qed.

Ltac js_unfold :=
  unfold compiler_build, bind, try_catch, DataCompiler_startBuild,
    TextureCompiler_compile, write_texture_metadata, JSON_stringify,
    Filesystem_writeFileSync, DataCompiler_finishBuild, addOutput, addError,
    mutate, console_error, console_log, modify, get, ret, throw,
    process_exit, bind.

Ltac js_heap := cbn; rewrite ?lookup_fresh; cbn; rewrite ?insert_fresh; cbn.

(** Two worlds with the same components are the same world. *)
Lemma world_ext (w1 w2 : World) :
  fs w1 = fs w2 -> cwd w1 = cwd w2 -> argv1 w1 = argv1 w2 ->
  application_args w1 = application_args w2 ->
  heap w1 = heap w2 -> trace w1 = trace w2 ->
  w1 = w2.
Proof. destruct w1, w2; cbn; intros; subst; reflexivity. Qed.

Ltac js_world :=
  apply world_ext;
  cbn [fs cwd argv1 application_args heap trace
       world_after emit with_heap with_fs with_args];
  rewrite <- ?app_assoc; reflexivity.

(** The build procedure computes what its closed form says. *)
Lemma compiler_build_run (input : BuildInput) (w : World) :
  compiler_build input w = build_run input w.
Proof.
  unfold build_run, try_block_result.
  js_unfold; cbn.
  destruct (native_compile (compile_options input) (fs w)) as [[e|md] f1]; cbn.
  - do 2 js_heap. destruct (not_persistent (application_args w)); cbn.
    + f_equal. js_world.
    + do 2 js_heap. f_equal. js_world.
  - destruct (json_text md) as [e|text]; cbn.
    + do 2 js_heap. destruct (not_persistent (application_args w)); cbn.
      * f_equal. js_world.
      * do 2 js_heap. f_equal. js_world.
    + destruct (fs_write (mpath input) (text +:+ newline) f1) as [[e|] f2]; cbn.
      * do 2 js_heap. destruct (not_persistent (application_args w)); cbn.
        -- f_equal. js_world.
        -- do 2 js_heap. f_equal. js_world.
      * do 4 js_heap. f_equal. js_world.
Qed.

(** No error of the [try] block leaves the build procedure as a throw. *)
Lemma compiler_build_never_throws (input : BuildInput) (w : World)
  (e : JsError) :
  fst (compiler_build input w) <> Thrown e.
Proof.
  rewrite compiler_build_run. unfold build_run.
  destruct (try_block_result input (fs w)) as [[e'|json] f'];
    [destruct (not_persistent (application_args w)) |];
    cbn [fst]; congruence.
Qed.

(** In persistent mode [main] stores the arguments and builds nothing. *)
Lemma main_persistent (Program : ProgramOptions) (w : World) :
  opt_persistent Program = true ->
  main Program w
  = (Returned tt,
     with_args (Some {| args_persistent := true; args_sourcePath := argv1 w;
                        args_targetPath := argv1 w; args_platform := "" |}) w).
Proof.
  intros Hp. unfold main, command_line, bind, get, ret, modify.
  rewrite Hp. reflexivity.
Qed.

(** What a returning compile step says about the native compiler. *)
Lemma compile_returned (input : BuildInput) (w w1 : World) (md : Metadata) :
  TextureCompiler_compile (compile_options input) (started input w)
  = (Returned md, w1) ->
  native_compile (compile_options input) (fs w) = (inr md, fs w1).
Proof.
  unfold TextureCompiler_compile, started, DataCompiler_startBuild; cbn.
  destruct (native_compile (compile_options input) (fs w)) as [[e|md'] f1];
    intros [= <- <-]; reflexivity.
Qed.

Lemma compile_thrown (input : BuildInput) (w w1 : World) (e : JsError) :
  TextureCompiler_compile (compile_options input) (started input w)
  = (Thrown e, w1) ->
  native_compile (compile_options input) (fs w) = (inl e, fs w1).
Proof.
  unfold TextureCompiler_compile, started, DataCompiler_startBuild; cbn.
  destruct (native_compile (compile_options input) (fs w)) as [[e'|md] f1];
    intros [= <- <-]; reflexivity.
Qed.

Lemma write_returned (path : string) (md : Metadata) (w1 w2 : World) :
  write_texture_metadata path md w1 = (Returned tt, w2) ->
  exists text,
    json_text md = inr text /\
    fs_write path (text +:+ newline)%string (fs w1) = (None, fs w2).
Proof.
  unfold write_texture_metadata, JSON_stringify, Filesystem_writeFileSync,
    bind, ret, throw.
  destruct (json_text md) as [e|text]; [discriminate |].
  destruct (fs_write path (text +:+ newline) (fs w1)) as [[e|] f2] eqn:E;
    intros [= <-]. exists text. split; [reflexivity | exact E].
Qed.

Lemma write_thrown (path : string) (md : Metadata) (w1 w2 : World)
  (e : JsError) :
  write_texture_metadata path md w1 = (Thrown e, w2) ->
  (json_text md = inl e /\ fs w2 = fs w1) \/
  (exists text,
     json_text md = inr text /\
     fs_write path (text +:+ newline)%string (fs w1) = (Some e, fs w2)).
Proof.
  unfold write_texture_metadata, JSON_stringify, Filesystem_writeFileSync,
    bind, ret, throw.
  destruct (json_text md) as [e'|text].
  - intros [= <- <-]. left. split; reflexivity.
  - destruct (fs_write path (text +:+ newline) (fs w1)) as [[e'|] f2] eqn:E;
      intros [= <- <-]. right. exists text. split; [reflexivity | exact E].
Qed.

Lemma try_block_succeeds (input : BuildInput) (w w1 w2 : World)
  (md : Metadata) :
  TextureCompiler_compile (compile_options input) (started input w)
  = (Returned md, w1) ->
  write_texture_metadata (mpath input) md w1 = (Returned tt, w2) ->
  exists json, try_block_result input (fs w) = (inr json, fs w2).
Proof.
  intros Hc%compile_returned (text & Hj & Hw)%write_returned.
  exists (text +:+ newline)%string.
  unfold try_block_result. rewrite Hc, Hj, Hw. reflexivity.
Qed.

Lemma try_block_compile_fails (input : BuildInput) (w w1 : World)
  (e : JsError) :
  TextureCompiler_compile (compile_options input) (started input w)
  = (Thrown e, w1) ->
  try_block_result input (fs w) = (inl e, fs w1).
Proof.
  intros Hc%compile_thrown. unfold try_block_result. by rewrite Hc.
Qed.

Lemma try_block_write_fails (input : BuildInput) (w w1 w2 : World)
  (md : Metadata) (e : JsError) :
  TextureCompiler_compile (compile_options input) (started input w)
  = (Returned md, w1) ->
  write_texture_metadata (mpath input) md w1 = (Thrown e, w2) ->
  try_block_result input (fs w) = (inl e, fs w2).
Proof.
  intros Hc%compile_returned [[Hj Hf]|(text & Hj & Hw)]%write_thrown;
    unfold try_block_result; rewrite Hc, Hj.
  - by rewrite Hf.
  - by rewrite Hw.
Qed.

(** C1. A build whose compile step and metadata write both succeed returns
    with the build state closed, holding exactly two outputs, the metadata
    path first and the target path second, and no error; the result that
    [finishBuild] reports for it says the same. *)
Theorem successful_build_records_metadata_then_payload
  (input : BuildInput) (w w1 w2 : World) (md : Metadata) :
  TextureCompiler_compile (compile_options input) (started input w)
  = (Returned md, w1) ->
  write_texture_metadata (mpath input) md w1 = (Returned tt, w2) ->
  exists w' r,
    compiler_build input w = (Returned tt, w') /\
    heap w' !! length (heap w)
    = Some {| request := input; outputs := [mpath input; targetPath input];
              errors := []; open := false |} /\
    List.filter (is_finish (length (heap w))) (events_since w w')
    = [EvFinishBuild (length (heap w)) r] /\
    result_outputs r = [mpath input; targetPath input] /\
    result_errors r = [] /\
    succeeded r = true.
Proof.
  intros Hc Hw. destruct (try_block_succeeds _ _ _ _ _ Hc Hw) as [json Ht].
  rewrite compiler_build_run. unfold build_run. rewrite Ht.
  eexists _, _. split; [reflexivity |].
  rewrite events_since_after, heap_after. cbn.
  rewrite Nat.eqb_refl. repeat split; reflexivity.
Qed.

(** C2. A build whose compile step fails records exactly one error, the
    value the compiler threw, and no output; nothing is written, the file
    system stays as the compiler left it; and when [application.args] is not
    persistent the three lines of the report go to [console.error] and the
    process exits with the code [ERROR]. *)
Theorem failed_compile_records_one_error
  (input : BuildInput) (w w1 : World) (e : JsError) :
  TextureCompiler_compile (compile_options input) (started input w)
  = (Thrown e, w1) ->
  let h := length (heap w) in
  let run := compiler_build input w in
  let evs := events_since w (snd run) in
  (exists o,
     heap (snd run) !! h
     = Some {| request := input; outputs := []; errors := [e]; open := o |}) /\
  List.filter (is_error h) evs = [EvAddError h e] /\
  writes evs = [] /\
  fs (snd run) = fs w1 /\
  (not_persistent (application_args w) = true ->
   fst run = Exited exit_code.ERROR /\
   stderr evs
   = ["An error has occurred:"; "  " +:+ error_toString e; ""]%string /\
   exit_code.ERROR = 1).
Proof.
  intros Ht%try_block_compile_fails h run evs. subst h run evs.
  rewrite compiler_build_run. unfold build_run. rewrite Ht.
  destruct (not_persistent (application_args w)); cbn [fst snd];
    rewrite events_since_after, heap_after; cbn; rewrite Nat.eqb_refl;
    (split; [eexists; reflexivity |]); repeat split; try reflexivity;
    discriminate.
Qed.


Lemma events_since_app (w w' : World) (evs : list Event) :
  trace w' = trace w ++ evs -> events_since w w' = evs.
Proof. unfold events_since. intros ->. apply drop_app_length. Qed.

(** A trace without a recorded output cannot be cut at one. *)
Lemma no_output_no_split (evs pre post : list Event) (h : nat) (p : string) :
  (forall h' p', ~ In (EvAddOutput h' p') evs) ->
  evs <> pre ++ EvAddOutput h p :: post.
Proof.
  intros Hn ->. apply (Hn h p). apply in_app_iff. right. by left.
Qed.

(** C4. In every build the metadata path is the target path with its
    extension replaced by [texture]: same directory, same base name, that
    extension; the payload path is the target path.  The sidecar is written
    to the metadata path only, and the outputs a build records are these two
    paths, metadata first. *)
Theorem metadata_path_replaces_extension (input : BuildInput) (w : World) :
  let T := targetPath input in
  let w' := snd (compiler_build input w) in
  PathModel.dirname (mpath input) = PathModel.dirname T /\
  PathModel.stem (mpath input) = PathModel.stem T /\
  PathModel.extension (mpath input) = Some "texture"%string /\
  ppath input = T /\
  (forall p c, In (EvWriteFile p c) (events_since w w') -> p = mpath input) /\
  (exists st,
     heap w' !! length (heap w) = Some st /\
     (outputs st = [] \/ outputs st = [mpath input; T])).
Proof.
  intros T w'. subst T w'. unfold mpath at 1 2 3.
  split; [by apply PathFacts.changeExtension_dirname |].
  split; [by apply PathFacts.changeExtension_stem |].
  split; [by apply PathFacts.changeExtension_extension |].
  split; [reflexivity |].
  rewrite compiler_build_run. unfold build_run.
  destruct (try_block_result input (fs w)) as [[e|json] f'];
    [destruct (not_persistent (application_args w)) |];
    cbn [snd]; rewrite events_since_after, heap_after; split.
  - intros p c [He|[He|[He|[He|[He|[He|[]]]]]]]; discriminate.
  - eexists; split; [reflexivity | by left].
  - intros p c [He|[He|[He|[He|[]]]]]; discriminate.
  - eexists; split; [reflexivity | by left].
  - intros p c [He|[He|[He|[He|[He|[He|[]]]]]]]; try discriminate.
    by injection He as <- _.
  - eexists; split; [reflexivity | by right].
Qed.

(** C5, as amended. Every build opens one state.  When the build returns,
    [finishBuild] was invoked on that state exactly once: that is every build
    without an error, and every build in persistent mode.  When an error was
    recorded and [application.args] is not persistent, the process exits with
    the code [ERROR] and [finishBuild] is not invoked. *)
Theorem finish_once_unless_standalone_failure
  (input : BuildInput) (w : World) :
  let h := length (heap w) in
  let run := compiler_build input w in
  let evs := events_since w (snd run) in
  start_count h evs = 1%nat /\
  ((fst run = Returned tt /\
    finish_count h evs = 1%nat /\
    (error_count h evs = 0%nat \/
     not_persistent (application_args w) = false)) \/
   (fst run = Exited exit_code.ERROR /\
    finish_count h evs = 0%nat /\
    error_count h evs = 1%nat /\
    not_persistent (application_args w) = true)).
Proof.
  intros h run evs. subst h run evs.
  rewrite compiler_build_run. unfold build_run.
  destruct (try_block_result input (fs w)) as [[e|json] f'];
    [destruct (not_persistent (application_args w)) |];
    cbn [fst snd]; rewrite events_since_after;
    unfold start_count, finish_count, error_count; cbn;
    rewrite Nat.eqb_refl; cbn; (split; [reflexivity |]).
  - right. repeat split; reflexivity.
  - left. repeat split; try reflexivity. by right.
  - left. repeat split; try reflexivity. by left.
Qed.

(** C6. In every build, each recording of an output comes after the
    completed write of the sidecar; and when the write throws after the
    compile step returned, the value it threw is recorded as the one error of
    the build and no output is recorded. *)
Theorem write_precedes_outputs_and_failure_is_recorded
  (input : BuildInput) (w : World) :
  let h := length (heap w) in
  let run := compiler_build input w in
  let evs := events_since w (snd run) in
  write_before_every_output (mpath input) evs /\
  (forall (md : Metadata) (e : JsError) (w1 w2 : World),
     TextureCompiler_compile (compile_options input) (started input w)
     = (Returned md, w1) ->
     write_texture_metadata (mpath input) md w1 = (Thrown e, w2) ->
     (exists o,
        heap (snd run) !! h
        = Some {| request := input; outputs := []; errors := [e];
                  open := o |}) /\
     List.filter (is_error h) evs = [EvAddError h e]).
Proof.
  intros h run evs. subst h run evs. split.
  - rewrite compiler_build_run. unfold build_run.
    destruct (try_block_result input (fs w)) as [[e|json] f'];
      [destruct (not_persistent (application_args w)) |];
      cbn [snd]; rewrite events_since_after; intros pre h p post Heq.
    + exfalso. eapply no_output_no_split; [| exact Heq].
      cbn. intuition discriminate.
    + exfalso. eapply no_output_no_split; [| exact Heq].
      cbn. intuition discriminate.
    + do 3 (destruct pre as [|? pre]; [discriminate | injection Heq as <- Heq]).
      exists json. cbn. tauto.
  - intros md e w1 w2 Hc Hw.
    pose proof (try_block_write_fails _ _ _ _ _ _ Hc Hw) as Ht.
    rewrite compiler_build_run. unfold build_run. rewrite Ht.
    destruct (not_persistent (application_args w)); cbn [snd];
      rewrite events_since_after, heap_after; cbn; rewrite Nat.eqb_refl;
      (split; [eexists; reflexivity | reflexivity]).
Qed.

(** C7. Outside persistent mode, when the input path names no file, [main]
    prints the message and exits with the code [FILE_NOT_FOUND], which is 2;
    no build state has been opened by then. *)
Theorem missing_input_exits_before_any_build
  (Program : ProgramOptions) (w : World) :
  opt_persistent Program = false ->
  fs_isFile (opt_input Program) (fs w) = false ->
  exists w',
    main Program w = (Exited exit_code.FILE_NOT_FOUND, w') /\
    exit_code.FILE_NOT_FOUND = 2 /\
    heap w' = heap w /\
    List.filter is_any_start (events_since w w') = [] /\
    stdout (events_since w w')
    = ["Error: No input file specified or input file not found."; ""]%string.
Proof.
  intros Hp Hf.
  unfold main, command_line, DataCompiler_isFile, console_log, modify, get,
    bind, process_exit.
  rewrite Hp, Hf. cbn.
  eexists. split; [reflexivity |]. split; [reflexivity |].
  split; [reflexivity |].
  rewrite (events_since_app w _
             [EvLog "Error: No input file specified or input file not found.";
              EvLog ""])
    by (cbn [trace emit]; by rewrite <- app_assoc).
  split; reflexivity.
Qed.

(** C8, what the code does. Node reports an exception that nothing caught
    under the name [uncaughtException]; the script registered its listener
    under [unhandledException].  So the emit reaches no listener of the
    script: nothing is printed and [process.exit] is not called by it.  The
    listener itself, were it reached, prints the report and exits with
    [ERROR]. *)
Theorem uncaught_exception_reaches_no_listener (e : JsError) (w : World) :
  process_emit uncaught_event e w = (Returned false, w) /\
  process_emit "unhandledException" e w
  = (Exited exit_code.ERROR,
     emit (EvError "")
       (emit (EvError ("  Error: " +:+ error_toString e)%string)
          (emit (EvError "An unhandled exception has occurred:") w))).
Proof. split; reflexivity. Qed.

(** C9. Outside persistent mode, with an input that exists and no output
    path, the target path is the base file name of the input with its
    extension replaced by [pixels], joined to the working directory; [main]
    builds with that target.  For [photo.png] in [/work] the target is
    [/work/photo.pixels] and the metadata path [/work/photo.texture]. *)
Theorem default_output_path (Program : ProgramOptions) (w : World) :
  opt_persistent Program = false ->
  fs_isFile (opt_input Program) (fs w) = true ->
  opt_output Program = ""%string ->
  command_line Program w = (Returned (default_args Program w), w) /\
  main Program w
  = compiler_build
      {| sourcePath := opt_input Program;
         targetPath :=
           Path_join (cwd w)
             (DataCompiler_changeExtension
                (Path_basename (opt_input Program)) "pixels");
         platform := opt_target Program;
         isIPC := false |}
      (with_args (Some (default_args Program w)) w) /\
  Path_join "/work"
    (DataCompiler_changeExtension (Path_basename "photo.png") "pixels")
  = "/work/photo.pixels"%string /\
  DataCompiler_changeExtension "/work/photo.pixels" "texture"
  = "/work/photo.texture"%string.
Proof.
  intros Hp Hf Ho.
  assert (Hc : command_line Program w = (Returned (default_args Program w), w)).
  { unfold command_line, DataCompiler_isFile, get, bind, ret.
    rewrite Hp, Hf, Ho. reflexivity. }
  split; [exact Hc |]. split; [| split; reflexivity].
  unfold main, bind at 1. rewrite Hc. reflexivity.
Qed.

(** C10. Outside persistent mode an empty input path, which the file system
    does not know as a file, ends like any input that is not a file: the
    message is printed and the process exits with [FILE_NOT_FOUND], which is
    2; and [command_line] exits with no other code. *)
Theorem empty_input_is_file_not_found (Program : ProgramOptions) (w : World) :
  opt_persistent Program = false ->
  opt_input Program = ""%string ->
  fs_isFile "" (fs w) = false ->
  (exists w',
     command_line Program w = (Exited exit_code.FILE_NOT_FOUND, w') /\
     exit_code.FILE_NOT_FOUND = 2 /\
     stdout (events_since w w')
     = ["Error: No input file specified or input file not found."; ""]%string) /\
  (forall Q : ProgramOptions,
     opt_persistent Q = false ->
     fs_isFile (opt_input Q) (fs w) = false ->
     command_line Q w = command_line Program w) /\
  (forall (Q : ProgramOptions) (code : Z) (w' : World),
     command_line Q w = (Exited code, w') ->
     code = exit_code.FILE_NOT_FOUND).
Proof.
  intros Hp Hi Hf.
  assert (Hq : forall Q, opt_persistent Q = false ->
                 fs_isFile (opt_input Q) (fs w) = false ->
                 command_line Q w
                 = (Exited exit_code.FILE_NOT_FOUND,
                    emit (EvLog "")
                      (emit (EvLog "Error: No input file specified or input file not found.") w))).
  { intros Q HQp HQf.
    unfold command_line, DataCompiler_isFile, console_log, modify, get,
      bind, process_exit.
    rewrite HQp, HQf. reflexivity. }
  assert (Hpf : fs_isFile (opt_input Program) (fs w) = false)
    by (by rewrite Hi).
  split; [| split].
  - eexists. split; [apply (Hq Program Hp Hpf) |]. split; [reflexivity |].
    rewrite (events_since_app w _
               [EvLog "Error: No input file specified or input file not found.";
                EvLog ""])
      by (cbn [trace emit]; by rewrite <- app_assoc).
    reflexivity.
  - intros Q HQp HQf. by rewrite (Hq Q HQp HQf), (Hq Program Hp Hpf).
  - intros Q code w'.
    unfold command_line, DataCompiler_isFile, console_log, modify, get,
      bind, process_exit, ret.
    destruct (opt_persistent Q); [discriminate |].
    destruct (fs_isFile (opt_input Q) (fs w)); cbn.
    + destruct (String.eqb (opt_output Q) ""); discriminate.
    + by intros [= <- _].
Qed.

End Facts.

(** ** Runs with the concrete collaborators *)

(** C1 on a run: [photo.png] built to [/work/photo.pixels]. *)
Lemma successful_build_run :
  exists w' r,
    compiler_build (Demo.good_input false)
      (Demo.world (Some Demo.standalone_args)) = (Returned tt, w') /\
    heap w' !! 0%nat
    = Some {| request := Demo.good_input false;
              outputs := ["/work/photo.texture"; "/work/photo.pixels"]%string;
              errors := []; open := false |} /\
    List.filter (is_finish 0) (events_since (Demo.world (Some Demo.standalone_args)) w')
    = [EvFinishBuild 0 r] /\
    result_outputs r = ["/work/photo.texture"; "/work/photo.pixels"]%string /\
    result_errors r = [] /\
    succeeded r = true.
Proof.
  eapply (successful_build_records_metadata_then_payload
            (Demo.good_input false) (Demo.world (Some Demo.standalone_args)));
    vm_compute; reflexivity.
Defined.

(** C2 on a run: a missing source, outside persistent mode. *)
Lemma failed_compile_run :
  fst (compiler_build (Demo.missing_input false)
         (Demo.world (Some Demo.standalone_args)))
  = Exited 1 /\
  stderr (events_since (Demo.world (Some Demo.standalone_args))
            (snd (compiler_build (Demo.missing_input false)
                    (Demo.world (Some Demo.standalone_args)))))
  = ["An error has occurred:"; "  Error: cannot read the source image"; ""]%string /\
  writes (events_since (Demo.world (Some Demo.standalone_args))
            (snd (compiler_build (Demo.missing_input false)
                    (Demo.world (Some Demo.standalone_args)))))
  = [].
Proof.
  edestruct (failed_compile_records_one_error (Demo.missing_input false)
               (Demo.world (Some Demo.standalone_args)))
    as (_ & _ & Hw & _ & Hs); [vm_compute; reflexivity |].
  destruct (Hs eq_refl) as (Hx & He & _).
  split; [exact Hx | split; [exact He | exact Hw]].
Defined.


(** C5, as stated, fails: outside persistent mode a build whose compile step
    throws opens its state and exits the process before [finishBuild]. *)
Lemma standalone_failure_never_finishes :
  start_count 0
    (events_since (Demo.world (Some Demo.standalone_args))
       (snd (compiler_build (Demo.missing_input false)
               (Demo.world (Some Demo.standalone_args))))) = 1%nat /\
  finish_count 0
    (events_since (Demo.world (Some Demo.standalone_args))
       (snd (compiler_build (Demo.missing_input false)
               (Demo.world (Some Demo.standalone_args))))) <> 1%nat.
Proof. split; [reflexivity | discriminate]. Qed.

(** C6 on a run: a target under the read-only directory. *)
Lemma failed_write_run :
  (exists o,
     heap (snd (compiler_build (Demo.read_only_input true)
                  (Demo.world (Some Demo.persistent_args)))) !! 0%nat
     = Some (@Build_BuildState Demo.collaborators
               (Demo.read_only_input true) [] ["Error: EACCES"%string] o)) /\
  List.filter (is_error 0)
    (events_since (Demo.world (Some Demo.persistent_args))
       (snd (compiler_build (Demo.read_only_input true)
               (Demo.world (Some Demo.persistent_args)))))
  = [@EvAddError Demo.collaborators 0 "Error: EACCES"%string].
Proof.
  eapply (proj2 (write_precedes_outputs_and_failure_is_recorded
                   (Demo.read_only_input true)
                   (Demo.world (Some Demo.persistent_args))));
    vm_compute; reflexivity.
Defined.

(** C7 on a run: [--input missing.png]. *)
Lemma missing_input_run :
  exists w',
    main (Demo.options "missing.png" "") (Demo.world None)
    = (Exited 2, w') /\
    exit_code.FILE_NOT_FOUND = 2 /\
    heap w' = [] /\
    List.filter is_any_start (events_since (Demo.world None) w') = [] /\
    stdout (events_since (Demo.world None) w')
    = ["Error: No input file specified or input file not found."; ""]%string.
Proof.
  apply (missing_input_exits_before_any_build
           (Demo.options "missing.png" "") (Demo.world None));
    vm_compute; reflexivity.
Defined.

(** C9 on a run: [--input photo.png] in [/work], no [--output]. *)
Lemma default_output_run :
  command_line (Demo.options "photo.png" "") (Demo.world None)
  = (Returned Demo.standalone_args, Demo.world None).
Proof.
  apply (default_output_path (Demo.options "photo.png" "") (Demo.world None));
    vm_compute; reflexivity.
Defined.

(** C10 on a run: no [--input]. *)
Lemma empty_input_run :
  exists w',
    command_line (Demo.options "" "") (Demo.world None) = (Exited 2, w') /\
    exit_code.FILE_NOT_FOUND = 2 /\
    stdout (events_since (Demo.world None) w')
    = ["Error: No input file specified or input file not found."; ""]%string.
Proof.
  apply (empty_input_is_file_not_found
           (Demo.options "" "") (Demo.world None));
    vm_compute; reflexivity.
Defined.

(** * More of the program *)

Section ProgramFacts.

Context `{Collaborators}.

(** [main] by cases on the persistence flag and on the file check. *)
Lemma main_cases (Program : ProgramOptions) (w : World) :
  main Program w
  = if opt_persistent Program
    then (Returned tt, with_args (Some (ipc_args w)) w)
    else if fs_isFile (opt_input Program) (fs w)
         then compiler_build (cli_input Program w)
                (with_args (Some (cli_args Program w)) w)
         else (Exited exit_code.FILE_NOT_FOUND,
               emit (EvLog "")
                 (emit (EvLog "Error: No input file specified or input file not found.") w)).
Proof.
  unfold main, command_line, DataCompiler_isFile, console_log, modify, get,
    bind, ret, process_exit.
  destruct (opt_persistent Program); [reflexivity |].
  destruct (fs_isFile (opt_input Program) (fs w)); cbn; [| reflexivity].
  unfold cli_input, cli_args, resolved_target.
  destruct (String.eqb (opt_output Program) ""); reflexivity.
Qed.

(** The state a build adds to the store. *)
Lemma build_heap_shape (input : BuildInput) (w : World) :
  exists st,
    heap (snd (compiler_build input w)) = heap w ++ [st] /\
    request st = input /\
    ((outputs st = [mpath input; ppath input] /\ errors st = []) \/
     (outputs st = [] /\ exists e, errors st = [e])).
Proof.
  rewrite compiler_build_run. unfold build_run.
  destruct (try_block_result input (fs w)) as [[e|json] f'];
    [destruct (not_persistent (application_args w)) |];
    eexists; (split; [reflexivity |]); (split; [reflexivity |]).
  - right. split; [reflexivity | by eexists].
  - right. split; [reflexivity | by eexists].
  - left. split; reflexivity.
Qed.

(** X1. With the persistence flag set, [command_line] returns the persistent
    arguments built from [process.argv[1]] whatever the other options are:
    the input is not checked, nothing is printed, the process does not
    exit. *)
Theorem persistent_flag_overrides_arguments
  (Program : ProgramOptions) (w : World) :
  opt_persistent Program = true ->
  command_line Program w = (Returned (ipc_args w), w) /\
  (forall Q : ProgramOptions,
     opt_persistent Q = true -> command_line Q w = command_line Program w).
Proof.
  intros Hp.
  assert (Hq : forall Q, opt_persistent Q = true ->
                 command_line Q w = (Returned (ipc_args w), w)).
  { intros Q HQ. unfold command_line, get, bind, ret. rewrite HQ.
    reflexivity. }
  split; [exact (Hq Program Hp) |].
  intros Q HQ. by rewrite (Hq Q HQ), (Hq Program Hp).
Qed.

(** X2. Outside persistent mode, with an input that exists, an output path
    that is given is returned as the target path as it stands: it is not
    joined to the working directory and its extension is not replaced. *)
Theorem explicit_output_is_kept (Program : ProgramOptions) (w : World) :
  opt_persistent Program = false ->
  fs_isFile (opt_input Program) (fs w) = true ->
  opt_output Program <> ""%string ->
  command_line Program w
  = (Returned {| args_persistent := false;
                 args_sourcePath := opt_input Program;
                 args_targetPath := opt_output Program;
                 args_platform := opt_target Program |}, w).
Proof.
  intros Hp Hf Ho%String.eqb_neq.
  unfold command_line, DataCompiler_isFile, get, bind, ret.
  rewrite Hp, Hf, Ho. reflexivity.
Qed.

(** X3. In persistent mode [main] returns without building: it stores the
    persistent arguments in [application.args], opens no build state, and has
    no effect on the file system or the console. *)
Theorem persistent_main_starts_no_build
  (Program : ProgramOptions) (w : World) :
  opt_persistent Program = true ->
  exists w',
    main Program w = (Returned tt, w') /\
    application_args w' = Some (ipc_args w) /\
    heap w' = heap w /\
    fs w' = fs w /\
    events_since w w' = [].
Proof.
  intros Hp. rewrite main_cases, Hp. eexists. split; [reflexivity |].
  repeat split. apply events_since_app. cbn. by rewrite app_nil_r.
Qed.


(** X5. A run outside persistent mode on an input that exists ends in one of
    two ways.  Either [main] returns: the build state is closed with the
    metadata path and the target path as outputs and no error, and nothing
    went to [console.error].  Or the process exits with [ERROR]: the state
    holds the one error [e] and is still open, [finishBuild] was not
    invoked, and [console.error] got the report of [e]. *)
Theorem standalone_run_succeeds_or_reports
  (Program : ProgramOptions) (w : World) :
  opt_persistent Program = false ->
  fs_isFile (opt_input Program) (fs w) = true ->
  let h := length (heap w) in
  let run := main Program w in
  let evs := events_since w (snd run) in
  let T := resolved_target Program w in
  (fst run = Returned tt /\
   heap (snd run) !! h
   = Some {| request := cli_input Program w;
             outputs := [DataCompiler_changeExtension T "texture"; T];
             errors := []; open := false |} /\
   finish_count h evs = 1%nat /\
   stderr evs = []) \/
  (exists e : JsError,
     fst run = Exited exit_code.ERROR /\
     heap (snd run) !! h
     = Some {| request := cli_input Program w; outputs := [];
               errors := [e]; open := true |} /\
     finish_count h evs = 0%nat /\
     stderr evs
     = ["An error has occurred:"; "  " +:+ error_toString e; ""]%string).
Proof.
  intros Hp Hf h run evs T. subst h run evs T.
  rewrite main_cases, Hp, Hf, compiler_build_run. unfold build_run.
  cbn [fs with_args application_args not_persistent cli_args
       args_persistent negb heap].
  destruct (try_block_result _ _) as [[e|json] f']; cbn [fst snd].
  - right. exists e. split; [reflexivity |].
    rewrite (events_since_app w _
      [EvStartBuild (length (heap w));
       EvCompile (compile_options (cli_input Program w));
       EvAddError (length (heap w)) e;
       EvError "An error has occurred:";
       EvError ("  " +:+ error_toString e)%string; EvError ""])
      by reflexivity.
    split; [apply lookup_fresh |].
    unfold finish_count. cbn. split; reflexivity.
  - left. split; [reflexivity |].
    rewrite (events_since_app w _
      [EvStartBuild (length (heap w));
       EvCompile (compile_options (cli_input Program w));
       EvWriteFile (mpath (cli_input Program w)) json;
       EvAddOutput (length (heap w)) (mpath (cli_input Program w));
       EvAddOutput (length (heap w)) (ppath (cli_input Program w));
       EvFinishBuild (length (heap w))
         (snapshot (succeeded_state (cli_input Program w)))])
      by reflexivity.
    split; [apply lookup_fresh |].
    unfold finish_count. cbn. rewrite Nat.eqb_refl. split; reflexivity.
Qed.

(** In persistent mode a build returns and leaves [application.args] as it
    found it. *)
Lemma persistent_build_returns (input : BuildInput) (w : World) (args : Args) :
  application_args w = Some args ->
  args_persistent args = true ->
  fst (compiler_build input w) = Returned tt /\
  application_args (snd (compiler_build input w)) = Some args.
Proof.
  intros Ha Hp. rewrite compiler_build_run. unfold build_run, not_persistent.
  rewrite Ha, Hp. cbn [negb].
  destruct (try_block_result input (fs w)) as [[e|json] f'];
    (split; [reflexivity | exact Ha]).
Qed.

Lemma last_char_newline (text : string) :
  last_char (text +:+ newline)%string = Some "010"%char.
Proof.
  induction text as [|a text IH]; [reflexivity |].
  cbn [String.append last_char].
  destruct (text +:+ newline)%string eqn:E; [| exact IH].
  destruct text; discriminate.
Qed.


(** X7. A build adds exactly one state to the store and leaves the states
    of earlier builds, the working directory, [process.argv] and
    [application.args] as they were; the effects so far stay a prefix of the
    trace. *)
Theorem build_adds_one_state_and_keeps_the_rest
  (input : BuildInput) (w : World) :
  let w' := snd (compiler_build input w) in
  length (heap w') = S (length (heap w)) /\
  take (length (heap w)) (heap w') = heap w /\
  cwd w' = cwd w /\
  argv1 w' = argv1 w /\
  application_args w' = application_args w /\
  trace w' = trace w ++ events_since w w'.
Proof.
  intros w'. subst w'. rewrite compiler_build_run. unfold build_run.
  destruct (try_block_result input (fs w)) as [[e|json] f'];
    [destruct (not_persistent (application_args w)) |];
    cbn [snd]; rewrite events_since_after;
    cbn [heap cwd argv1 application_args trace world_after];
    rewrite length_app, take_app_length; cbn [length];
    repeat split; lia.
Qed.

(** X8. Two 'build' events handled one after the other in persistent mode
    both return; the second build leaves the state of the first as it was and
    works on a state of its own, which holds the second request and either
    its two outputs and no error or one error and no output. *)
Theorem sequential_builds_are_independent
  (d1 d2 : BuildEvent) (w : World) (args : Args) :
  application_args w = Some args ->
  args_persistent args = true ->
  let w1 := snd (on_build d1 w) in
  let w2 := snd (on_build d2 w1) in
  let h := length (heap w) in
  fst (on_build d1 w) = Returned tt /\
  fst (on_build d2 w1) = Returned tt /\
  heap w2 !! h = heap w1 !! h /\
  exists st2,
    heap w2 !! S h = Some st2 /\
    request st2 = ipc_input d2 /\
    ((outputs st2 = [mpath (ipc_input d2); ppath (ipc_input d2)] /\
      errors st2 = []) \/
     (outputs st2 = [] /\ exists e, errors st2 = [e])).
Proof.
  intros Ha Hp w1 w2 h. subst w1 w2 h. unfold on_build.
  fold (ipc_input d1). fold (ipc_input d2).
  destruct (persistent_build_returns (ipc_input d1) w args Ha Hp) as [Hr1 Ha1].
  destruct (persistent_build_returns (ipc_input d2) _ args Ha1 Hp) as [Hr2 _].
  destruct (build_heap_shape (ipc_input d1) w) as (st1 & Hh1 & _).
  destruct (build_heap_shape (ipc_input d2)
              (snd (compiler_build (ipc_input d1) w)))
    as (st2 & Hh2 & Hq2 & Hs2).
  split; [exact Hr1 |]. split; [exact Hr2 |].
  rewrite Hh2, Hh1. split.
  - apply lookup_app_l. rewrite length_app. cbn. lia.
  - exists st2. split; [| split; assumption].
    apply list_lookup_middle. rewrite length_app. cbn. lia.
Qed.


(** X10. [write_texture_metadata] never exits the process and touches no
    build state.  When it returns it has written one file, at the given
    path, holding the serialised text and a final newline.  When
    [JSON.stringify] throws, the world is left as it was; when the write
    throws, no write is recorded. *)
Theorem sidecar_write_behaviour
  (path : string) (meta : Metadata) (w : World) :
  let run := write_texture_metadata path meta w in
  let evs := events_since w (snd run) in
  heap (snd run) = heap w /\
  (forall code : Z, fst run <> Exited code) /\
  ((exists text,
      json_text meta = inr text /\
      fst run = Returned tt /\
      evs = [EvWriteFile path (text +:+ newline)%string] /\
      last_char (text +:+ newline)%string = Some "010"%char) \/
   (exists e, json_text meta = inl e /\ run = (Thrown e, w)) \/
   (exists e text,
      json_text meta = inr text /\ fst run = Thrown e /\ evs = [])).
Proof.
  intros run evs. subst run evs.
  unfold write_texture_metadata, JSON_stringify, Filesystem_writeFileSync,
    bind, ret, throw.
  destruct (json_text meta) as [e|text].
  - split; [reflexivity |]. split; [discriminate |].
    right. left. by exists e.
  - destruct (fs_write path (text +:+ newline) (fs w)) as [[e|] f2];
      cbn [fst snd].
    + split; [reflexivity |]. split; [discriminate |].
      right. right. exists e, text. repeat split.
      apply events_since_app. cbn. by rewrite app_nil_r.
    + split; [reflexivity |]. split; [discriminate |].
      left. exists text. repeat split; [| apply last_char_newline].
      by apply events_since_app.
Qed.


(** X12. When the target path already has the metadata extension, so that
    the metadata path is the target path itself, a successful build writes
    the sidecar onto the target path and records that path twice: outputs
    are not deduplicated. *)
Theorem metadata_path_may_be_the_target
  (input : BuildInput) (w w1 w2 : World) (md : Metadata) :
  mpath input = targetPath input ->
  TextureCompiler_compile (compile_options input) (started input w)
  = (Returned md, w1) ->
  write_texture_metadata (mpath input) md w1 = (Returned tt, w2) ->
  let w' := snd (compiler_build input w) in
  heap w' !! length (heap w)
  = Some {| request := input;
            outputs := [targetPath input; targetPath input];
            errors := []; open := false |} /\
  exists contents,
    writes (events_since w w') = [EvWriteFile (targetPath input) contents].
Proof.
  intros Hm Hc Hw w'. subst w'.
  destruct (try_block_succeeds _ _ _ _ _ Hc Hw) as [json Ht].
  rewrite compiler_build_run. unfold build_run. rewrite Ht. cbn [snd].
  rewrite events_since_after, heap_after. unfold succeeded_state, ppath.
  rewrite Hm. split; [reflexivity |]. by exists json.
Qed.

End ProgramFacts.

(** ** More runs with the concrete collaborators *)

(** X1 on a run: the persistence flag with an input that does not exist. *)
Lemma persistent_flag_run :
  command_line {| opt_persistent := true; opt_input := "missing.png";
                  opt_output := "out.bin"; opt_target := "ios" |}
    (Demo.world None)
  = (Returned Demo.persistent_args, Demo.world None).
Proof.
  exact (proj1 (persistent_flag_overrides_arguments
                  {| opt_persistent := true; opt_input := "missing.png";
                     opt_output := "out.bin"; opt_target := "ios" |}
                  (Demo.world None) eq_refl)).
Defined.

(** X2 on a run: [--input photo.png --output out/photo.bin]. *)
Lemma explicit_output_run :
  command_line (Demo.options "photo.png" "out/photo.bin") (Demo.world None)
  = (Returned {| args_persistent := false; args_sourcePath := "photo.png";
                 args_targetPath := "out/photo.bin"; args_platform := "" |},
     Demo.world None).
Proof.
  apply (explicit_output_is_kept
           (Demo.options "photo.png" "out/photo.bin") (Demo.world None));
    [reflexivity | reflexivity | discriminate].
Defined.

(** X3 on a run: [--persistent]. *)
Lemma persistent_main_run :
  exists w',
    main {| opt_persistent := true; opt_input := ""; opt_output := "";
            opt_target := "" |} (Demo.world None)
    = (Returned tt, w') /\
    application_args w' = Some Demo.persistent_args /\
    heap w' = [] /\
    fs w' = fs (Demo.world None) /\
    events_since (Demo.world None) w' = [].
Proof.
  apply (persistent_main_starts_no_build
           {| opt_persistent := true; opt_input := ""; opt_output := "";
              opt_target := "" |} (Demo.world None)).
  reflexivity.
Defined.

(** X5 on a run: [--input photo.png] in [/work]. *)
Lemma standalone_photo_run :
  fst (main (Demo.options "photo.png" "") (Demo.world None)) = Returned tt /\
  stderr (events_since (Demo.world None)
            (snd (main (Demo.options "photo.png" "") (Demo.world None))))
  = [].
Proof.
  destruct (standalone_run_succeeds_or_reports
              (Demo.options "photo.png" "") (Demo.world None)
              eq_refl eq_refl)
    as [(Hr & _ & _ & He)|(e & Hx & _)].
  - split; [exact Hr | exact He].
  - vm_compute in Hx. discriminate Hx.
Defined.


(** X8 on a run: a build that fails, then a build that succeeds. *)
Lemma sequential_builds_run :
  fst (on_build {| data_sourcePath := "photo.png";
                   data_targetPath := "/work/photo"; data_platform := "" |}
         (snd (on_build {| data_sourcePath := "missing.png";
                           data_targetPath := "/work/missing";
                           data_platform := "" |}
                 (Demo.world (Some Demo.persistent_args)))))
  = Returned tt /\
  heap (snd (on_build {| data_sourcePath := "photo.png";
                         data_targetPath := "/work/photo";
                         data_platform := "" |}
               (snd (on_build {| data_sourcePath := "missing.png";
                                 data_targetPath := "/work/missing";
                                 data_platform := "" |}
                       (Demo.world (Some Demo.persistent_args)))))) !! 0%nat
  = heap (snd (on_build {| data_sourcePath := "missing.png";
                           data_targetPath := "/work/missing";
                           data_platform := "" |}
                 (Demo.world (Some Demo.persistent_args)))) !! 0%nat.
Proof.
  destruct (sequential_builds_are_independent
              {| data_sourcePath := "missing.png";
                 data_targetPath := "/work/missing"; data_platform := "" |}
              {| data_sourcePath := "photo.png";
                 data_targetPath := "/work/photo"; data_platform := "" |}
              (Demo.world (Some Demo.persistent_args)) Demo.persistent_args
              eq_refl eq_refl)
    as (_ & Hr & Hh & _).
  split; [exact Hr | exact Hh].
Defined.

(** X12 on a run: [--output /work/photo.texture]. *)
Lemma metadata_on_target_run :
  heap (snd (compiler_build
               {| sourcePath := "photo.png";
                  targetPath := "/work/photo.texture";
                  platform := ""; isIPC := false |}
               (Demo.world (Some Demo.standalone_args)))) !! 0%nat
  = Some (@Build_BuildState Demo.collaborators
            {| sourcePath := "photo.png"; targetPath := "/work/photo.texture";
               platform := ""; isIPC := false |}
            ["/work/photo.texture"; "/work/photo.texture"]%string [] false).
Proof.
  eapply (metadata_path_may_be_the_target
            {| sourcePath := "photo.png"; targetPath := "/work/photo.texture";
               platform := ""; isIPC := false |}
            (Demo.world (Some Demo.standalone_args)));
    vm_compute; reflexivity.
Defined.
